(** * git2-rs systest: the MSVC compatibility header

    A model of [systest/include/git2-systest-win32.h] and of the part of
    a C translation unit the header reads and writes: the set of defined
    preprocessor macros and the sequence of typedef declarations seen so
    far.  The header is embedded as a function on that state, one
    conditional per preprocessor conditional of the file.  Macro
    replacement acts on the one declaration line of the header: the
    model follows it where the line is left as written and records the
    line as replaced where one of its identifiers is a macro. *)

From Stdlib Require Import ZArith.
From stdpp Require Import gmap strings list.

(* [set_solver] clears hypotheses by name; the missing ones are harmless. *)
#[local] Set Warnings "-clear-no-such-hyp".

Local Open Scope string_scope.
Local Open Scope list_scope.
Local Open Scope nat_scope.

(** ** C integer types *)

Inductive signedness := Signed | Unsigned.
Inductive int_rank := Char | Short | Int | Long | LongLong.

Record ctype := CInt { ty_sign : signedness; ty_rank : int_rank }.

#[global] Instance signedness_eq_dec : EqDecision signedness.
Proof. solve_decision. Defined.
#[global] Instance int_rank_eq_dec : EqDecision int_rank.
Proof. solve_decision. Defined.
#[global] Instance ctype_eq_dec : EqDecision ctype.
Proof. solve_decision. Defined.

(** [unsigned short], the type named on line 8 of the header. *)
Definition unsigned_short : ctype := CInt Unsigned Short.





(** ** Translation units *)

(** A typedef declaration as the front end receives it, after macro
    replacement: [typedef td_type td_name;]. *)
Record typedef_decl := Typedef_decl { td_name : string; td_type : ctype }.

#[global] Instance typedef_decl_eq_dec : EqDecision typedef_decl.
Proof. solve_decision. Defined.

(** What the preprocessor and the front end have accumulated at a point
    of a translation unit.

    - [macros]: the names of the macros currently defined.  Replacement
      lists are not kept: the conditionals of the header only ask
      whether a macro is defined.
    - [decls]: the typedef declarations the front end has received, in
      the order they were met (a name met twice is a redefinition, so
      duplicates are kept).
    - [replaced_lines]: the declaration lines of the header, as written
      there, that were subject to macro replacement: one of their
      identifiers was a defined macro.  What such a line declares
      (another type, another name, nothing, or the same typedef after
      all) depends on how the macro is defined, which the set of names
      does not give, so the line is kept apart and no entry of [decls]
      is made up for it. *)
Record tu := TU {
  macros : gset string;
  decls : list typedef_decl;
  replaced_lines : list (list string)
}.

Definition defined (m : string) (t : tu) : bool := bool_decide (m ∈ macros t).

Definition define (m : string) (t : tu) : tu :=
  TU ({[m]} ∪ macros t) (decls t) (replaced_lines t).

Definition undef (m : string) (t : tu) : tu :=
  TU (macros t ∖ {[m]}) (decls t) (replaced_lines t).

Definition typedef (n : string) (ty : ctype) (t : tu) : tu :=
  TU (macros t) (decls t ++ [Typedef_decl n ty]) (replaced_lines t).

Definition replaced_line (line : list string) (t : tu) : tu :=
  TU (macros t) (decls t) (replaced_lines t ++ [line]).

(** The names declared so far, in order. *)
Definition declared_names (t : tu) : list string := td_name <$> decls t.

(** All declarations of one name, in order. *)
Definition declarations_of (n : string) (t : tu) : list typedef_decl :=
  filter (λ d, td_name d = n) (decls t).

(** The type a typedef name resolves to, if it is declared, as far as
    [decls] tells. *)
Definition resolve (n : string) (t : tu) : option ctype :=
  td_type <$> head (declarations_of n t).

(** No redefinition: no typedef name is declared twice, and no line
    was subject to macro replacement.  Where this holds
    no dialect of C reports a redefinition: C99 reports a typedef name
    declared twice in one scope, C11 and later only one declared with
    two different types. *)
Definition redefinition_free (t : tu) : bool :=
  bool_decide (NoDup (declared_names t)) && bool_decide (replaced_lines t = []).

(** The rule of C11 (6.7 paragraph 3): a typedef name may be declared
    again with the same type, so a redefinition is reported only where
    one name is declared with two types.  As above, a line that went
    through macro replacement is not vouched for. *)
Definition conflict_free (t : tu) : bool :=
  bool_decide
    (Forall (λ d, Forall (λ d', td_name d = td_name d' → td_type d = td_type d')
                    (decls t))
       (decls t))
  && bool_decide (replaced_lines t = []).

(** ** The header *)

Definition GIT2_SYS_TEST_WIN32_COMPAT_H : string := "GIT2_SYS_TEST_WIN32_COMPAT_H".
Definition _MSC_VER : string := "_MSC_VER".
Definition _MODE_T_DEFINED : string := "_MODE_T_DEFINED".
Definition mode_t : string := "mode_t".

(** The identifiers of line 8, keywords included: the tokens macro
    replacement acts on. *)
Definition typedef_line : list string := ["typedef"; "unsigned"; "short"; mode_t].

(** Line 8 reaches the front end as it is written: none of its
    identifiers is a defined macro. *)
Definition typedef_line_verbatim (t : tu) : bool :=
  forallb (λ tok, negb (defined tok t)) typedef_line.

(** Line 8 as the front end receives it: the typedef it spells when no
    identifier of it is a macro, otherwise a line subject to macro
    replacement. *)
Definition declare_mode_t (t : tu) : tu :=
  if typedef_line_verbatim t then typedef mode_t unsigned_short t
  else replaced_line typedef_line t.

(** One textual inclusion of [git2-systest-win32.h] at state [t]. *)
Definition git2_systest_win32_h (t : tu) : tu :=
  if negb (defined GIT2_SYS_TEST_WIN32_COMPAT_H t) then      (* #ifndef GIT2_SYS_TEST_WIN32_COMPAT_H *)
    let t := define GIT2_SYS_TEST_WIN32_COMPAT_H t in        (* #define GIT2_SYS_TEST_WIN32_COMPAT_H *)
    if defined _MSC_VER t && negb (defined _MODE_T_DEFINED t) then
                                                             (* #if defined(_MSC_VER) && !defined(_MODE_T_DEFINED) *)
      let t := declare_mode_t t in                           (* typedef unsigned short mode_t; *)
      let t := define _MODE_T_DEFINED t in                   (* #define _MODE_T_DEFINED *)
      t
    else t                                                   (* #endif *)
  else t.                                                    (* #endif *)

(** Lines 7 to 10 on their own: the conditional block inside the
    include guard. *)
Definition mode_t_block (t : tu) : tu :=
  if defined _MSC_VER t && negb (defined _MODE_T_DEFINED t) then
                                                           (* #if defined(_MSC_VER) && !defined(_MODE_T_DEFINED) *)
    let t := declare_mode_t t in                           (* typedef unsigned short mode_t; *)
    let t := define _MODE_T_DEFINED t in                   (* #define _MODE_T_DEFINED *)
    t
  else t.                                                  (* #endif *)

(** ** The translation unit around the header *)

(** The lines of a translation unit that matter to the header: an
    inclusion of it (written directly, or reached through another
    header), a macro definition or removal by other code, and a typedef
    of other code as the front end receives it. *)
Inductive item :=
  | IncludeHeader
  | DefineMacro (m : string)
  | UndefMacro (m : string)
  | DeclareTypedef (n : string) (ty : ctype).

Definition step (i : item) (t : tu) : tu :=
  match i with
  | IncludeHeader => git2_systest_win32_h t
  | DefineMacro m => define m t
  | UndefMacro m => undef m t
  | DeclareTypedef n ty => typedef n ty t
  end.

Fixpoint preprocess (items : list item) (t : tu) : tu :=
  match items with
  | [] => t
  | i :: rest => preprocess rest (step i t)
  end.

(** [n] inclusions of the header in sequence. *)
Definition include_times (n : nat) (t : tu) : tu :=
  preprocess (replicate n IncludeHeader) t.

(** The declarations and the macros a stretch of the translation unit
    adds, from the state before it and the state after it. *)
Definition added_decls (t t' : tu) : list typedef_decl :=
  drop (length (decls t)) (decls t').

Definition added_macros (t t' : tu) : gset string :=
  macros t' ∖ macros t.

Definition effect (t t' : tu) : list typedef_decl * gset string :=
  (added_decls t t', added_macros t t').

(** What one inclusion at state [t] declares. *)
Definition emitted (t : tu) : list typedef_decl :=
  added_decls t (git2_systest_win32_h t).

(** The lines one inclusion at state [t] hands to the front end through
    macro replacement. *)
Definition emitted_replaced (t : tu) : list (list string) :=
  drop (length (replaced_lines t)) (replaced_lines (git2_systest_win32_h t)).

(** What the inclusions of the header declare along a translation unit,
    other code's typedefs left out. *)
Fixpoint header_decls (items : list item) (t : tu) : list typedef_decl :=
  match items with
  | [] => []
  | IncludeHeader :: rest => emitted t ++ header_decls rest (step IncludeHeader t)
  | i :: rest => header_decls rest (step i t)
  end.

(** The replaced lines the inclusions of the header hand over along a
    translation unit. *)
Fixpoint header_replaced (items : list item) (t : tu) : list (list string) :=
  match items with
  | [] => []
  | IncludeHeader :: rest =>
      emitted_replaced t ++ header_replaced rest (step IncludeHeader t)
  | i :: rest => header_replaced rest (step i t)
  end.

(** Other code leaves the header's include guard alone: it never
    removes the macro. *)
Definition keeps_guard (i : item) : bool :=
  match i with
  | UndefMacro m => negb (String.eqb m GIT2_SYS_TEST_WIN32_COMPAT_H)
  | _ => true
  end.


Definition is_include (i : item) : bool :=
  match i with IncludeHeader => true | _ => false end.

(** The header has not been processed yet in this translation unit: its
    include guard is not defined. *)
Definition first_inclusion (t : tu) : Prop :=
  defined GIT2_SYS_TEST_WIN32_COMPAT_H t = false.


(** ** One inclusion, case by case *)

(** The ways through the header: skipped by the include guard; guard
    passed and the inner condition true, with line 8 left as written or
    macro-replaced; guard passed and the inner condition false. *)
Inductive header_run (t : tu) : tu → Prop :=
  | run_guarded :
      defined GIT2_SYS_TEST_WIN32_COMPAT_H t = true →
      header_run t t
  | run_declares :
      defined GIT2_SYS_TEST_WIN32_COMPAT_H t = false →
      defined _MSC_VER t = true →
      defined _MODE_T_DEFINED t = false →
      typedef_line_verbatim t = true →
      header_run t
        (define _MODE_T_DEFINED
           (typedef mode_t unsigned_short
              (define GIT2_SYS_TEST_WIN32_COMPAT_H t)))
  | run_replaced :
      defined GIT2_SYS_TEST_WIN32_COMPAT_H t = false →
      defined _MSC_VER t = true →
      defined _MODE_T_DEFINED t = false →
      typedef_line_verbatim t = false →
      header_run t
        (define _MODE_T_DEFINED
           (replaced_line typedef_line
              (define GIT2_SYS_TEST_WIN32_COMPAT_H t)))
  | run_skips :
      defined GIT2_SYS_TEST_WIN32_COMPAT_H t = false →
      defined _MSC_VER t && negb (defined _MODE_T_DEFINED t) = false →
      header_run t (define GIT2_SYS_TEST_WIN32_COMPAT_H t).

(** The inclusion reaches line 8 exactly when all three tests let it. *)
Definition declares (t : tu) : bool :=
  negb (defined GIT2_SYS_TEST_WIN32_COMPAT_H t)
  && defined _MSC_VER t && negb (defined _MODE_T_DEFINED t).

(** The feature flag tells the truth: where [_MODE_T_DEFINED] is set,
    [mode_t] is declared. *)
Definition flag_coherent (t : tu) : bool :=
  negb (defined _MODE_T_DEFINED t) || bool_decide (mode_t ∈ declared_names t).

(** [mode_t] is already declared with a type other than the header's. *)
Definition mode_t_declared_otherwise (t : tu) : bool :=
  bool_decide (Exists (λ d, td_name d = mode_t ∧ td_type d ≠ unsigned_short) (decls t)).

(** ** Sample translation units *)

(** Nothing but the compiler's own macro. *)
Definition msvc_tu : tu := TU {[_MSC_VER]} [] [].

(** Another compiler. *)
Definition gcc_tu : tu := TU ∅ [] [].

(** The platform headers came first: they declared [mode_t] and set
    the feature flag. *)
Definition msvc_native_tu : tu :=
  TU {[_MSC_VER; _MODE_T_DEFINED]} [Typedef_decl mode_t unsigned_short] [].

(** The translation unit declared its own [mode_t] and set the flag. *)
Definition own_mode_t_tu : tu :=
  TU {[_MODE_T_DEFINED]} [Typedef_decl mode_t (CInt Signed Int)] [].

(** The include guard was defined from outside before any inclusion. *)
Definition preguarded_tu : tu :=
  TU {[_MSC_VER; GIT2_SYS_TEST_WIN32_COMPAT_H]} [] [].

(** Other code declared [mode_t] under the targeted compiler without
    setting the feature flag. *)
Definition unflagged_mode_t_tu : tu :=
  TU {[_MSC_VER]} [Typedef_decl mode_t (CInt Signed Int)] [].

(** Under the targeted compiler, other code made [mode_t] a macro. *)
Definition macro_mode_t_tu : tu := define mode_t msvc_tu.

(** Under the targeted compiler, other code made [short] a macro. *)
Definition macro_short_tu : tu := define "short" msvc_tu.

(** Other code declared [mode_t] with the header's own type under the
    targeted compiler without setting the feature flag. *)
Definition unflagged_same_mode_t_tu : tu :=
  TU {[_MSC_VER]} [Typedef_decl mode_t unsigned_short] [].

(** The header was included once under the targeted compiler and other
    code then removed the feature flag. *)
Definition flag_removed_tu : tu :=
  preprocess [IncludeHeader; UndefMacro _MODE_T_DEFINED] msvc_tu.

(** Code between two inclusions removes the feature flag and defines an
    unrelated macro and type. *)
Definition busy_items : list item :=
  [IncludeHeader; UndefMacro _MODE_T_DEFINED; DefineMacro "NDEBUG";
   DeclareTypedef "git_off_t" (CInt Signed LongLong); IncludeHeader;
   IncludeHeader].


(** ** Macros and declarations under the primitive operations *)

Section Primitives.
Implicit Types (m n : string) (t : tu) (ty : ctype).

Lemma defined_true m t : defined m t = true ↔ m ∈ macros t.
Proof. unfold defined. apply bool_decide_eq_true. Qed.

Lemma defined_false m t : defined m t = false ↔ m ∉ macros t.
Proof. unfold defined. apply bool_decide_eq_false. Qed.

Lemma defined_define_eq m t : defined m (define m t) = true.
Proof. apply defined_true. cbn. set_solver. Qed.

Lemma defined_define_ne m m' t :
  m ≠ m' → defined m (define m' t) = defined m t.
Proof. intros Hne. apply bool_decide_ext. cbn. rewrite elem_of_union, elem_of_singleton. tauto. Qed.

Lemma defined_undef_ne m m' t :
  m ≠ m' → defined m (undef m' t) = defined m t.
Proof. intros Hne. apply bool_decide_ext. cbn. rewrite elem_of_difference, elem_of_singleton. tauto. Qed.

Lemma defined_typedef m n ty t : defined m (typedef n ty t) = defined m t.
Proof. reflexivity. Qed.

Lemma defined_replaced_line m line t : defined m (replaced_line line t) = defined m t.
Proof. reflexivity. Qed.

Lemma defined_declare_mode_t m t : defined m (declare_mode_t t) = defined m t.
Proof. unfold declare_mode_t. by destruct (typedef_line_verbatim t). Qed.

Lemma added_decls_none t t' : decls t' = decls t → added_decls t t' = [].
Proof. unfold added_decls. intros ->. apply drop_all. Qed.

Lemma added_decls_app t t' l :
  decls t' = decls t ++ l → added_decls t t' = l.
Proof. unfold added_decls. intros ->. apply drop_app_length. Qed.

(** Whether line 8 is left as written depends on the macros named on
    it alone. *)
Lemma verbatim_define m t :
  m ∉ typedef_line → typedef_line_verbatim (define m t) = typedef_line_verbatim t.
Proof.
  unfold typedef_line_verbatim, typedef_line. intros Hm. cbn.
  rewrite !not_elem_of_cons in Hm. destruct Hm as (H1 & H2 & H3 & H4 & _).
  by rewrite !(defined_define_ne _ m).
Qed.

Lemma verbatim_undef m t :
  m ∉ typedef_line → typedef_line_verbatim (undef m t) = typedef_line_verbatim t.
Proof.
  unfold typedef_line_verbatim, typedef_line. intros Hm. cbn.
  rewrite !not_elem_of_cons in Hm. destruct Hm as (H1 & H2 & H3 & H4 & _).
  by rewrite !(defined_undef_ne _ m).
Qed.

Lemma guard_not_on_typedef_line : GIT2_SYS_TEST_WIN32_COMPAT_H ∉ typedef_line.
Proof. unfold typedef_line. rewrite !not_elem_of_cons. repeat split; try done. apply not_elem_of_nil. Qed.

Lemma flag_not_on_typedef_line : _MODE_T_DEFINED ∉ typedef_line.
Proof. unfold typedef_line. rewrite !not_elem_of_cons. repeat split; try done. apply not_elem_of_nil. Qed.
End Primitives.

(** ** One inclusion *)

Section OneInclusion.
Implicit Types (m n : string) (t : tu).

Lemma header_runP t : header_run t (git2_systest_win32_h t).
Proof.
  unfold git2_systest_win32_h.
  destruct (defined GIT2_SYS_TEST_WIN32_COMPAT_H t) eqn:Hguard; cbn.
  - by constructor.
  - rewrite !defined_define_ne by done.
    destruct (defined _MSC_VER t) eqn:Hmsvc,
             (defined _MODE_T_DEFINED t) eqn:Hflag; cbn;
      try (constructor; by rewrite ?Hmsvc, ?Hflag).
    unfold declare_mode_t.
    rewrite (verbatim_define _ t guard_not_on_typedef_line).
    destruct (typedef_line_verbatim t) eqn:Hline; by constructor.
Qed.

Lemma header_guarded t :
  defined GIT2_SYS_TEST_WIN32_COMPAT_H t = true → git2_systest_win32_h t = t.
Proof. intros Hguard. unfold git2_systest_win32_h. by rewrite Hguard. Qed.

Lemma header_sets_guard t :
  defined GIT2_SYS_TEST_WIN32_COMPAT_H (git2_systest_win32_h t) = true.
Proof.
  destruct (header_runP t); [done | | |].
  - rewrite defined_define_ne by done. apply defined_define_eq.
  - rewrite defined_define_ne by done. apply defined_define_eq.
  - apply defined_define_eq.
Qed.

Lemma header_idempotent t :
  git2_systest_win32_h (git2_systest_win32_h t) = git2_systest_win32_h t.
Proof. apply header_guarded, header_sets_guard. Qed.

Lemma emitted_declares t :
  emitted t
  = if declares t && typedef_line_verbatim t
    then [Typedef_decl mode_t unsigned_short] else [].
Proof.
  unfold emitted, declares.
  destruct (header_runP t) as [Hg | Hg Hm Hf Hl | Hg Hm Hf Hl | Hg Hc].
  - rewrite Hg. by apply added_decls_none.
  - rewrite Hg, Hm, Hf, Hl. by apply added_decls_app.
  - rewrite Hg, Hm, Hf, Hl. by apply added_decls_none.
  - rewrite Hg. cbn. rewrite Hc. by apply added_decls_none.
Qed.

Lemma emitted_replaced_declares t :
  emitted_replaced t
  = if declares t && negb (typedef_line_verbatim t) then [typedef_line] else [].
Proof.
  unfold emitted_replaced, declares.
  destruct (header_runP t) as [Hg | Hg Hm Hf Hl | Hg Hm Hf Hl | Hg Hc].
  - rewrite Hg. apply drop_all.
  - rewrite Hg, Hm, Hf, Hl. apply drop_all.
  - rewrite Hg, Hm, Hf, Hl. cbn. apply drop_app_length.
  - rewrite Hg. cbn. rewrite Hc. apply drop_all.
Qed.

Lemma header_decls_emitted t :
  decls (git2_systest_win32_h t) = decls t ++ emitted t.
Proof.
  unfold emitted.
  destruct (header_runP t).
  - by rewrite added_decls_none, app_nil_r.
  - by erewrite added_decls_app.
  - by rewrite added_decls_none, app_nil_r.
  - by rewrite added_decls_none, app_nil_r.
Qed.

Lemma header_replaced_emitted t :
  replaced_lines (git2_systest_win32_h t) = replaced_lines t ++ emitted_replaced t.
Proof.
  unfold emitted_replaced.
  destruct (header_runP t); cbn; by rewrite ?drop_all, ?drop_app_length, ?app_nil_r.
Qed.

Lemma header_flag t :
  defined _MODE_T_DEFINED (git2_systest_win32_h t)
  = defined _MODE_T_DEFINED t || declares t.
Proof.
  unfold declares.
  destruct (header_runP t) as [Hg | Hg Hm Hf Hl | Hg Hm Hf Hl | Hg Hc].
  - rewrite Hg. cbn. by rewrite orb_false_r.
  - rewrite Hg, Hm, Hf. apply defined_define_eq.
  - rewrite Hg, Hm, Hf. apply defined_define_eq.
  - rewrite defined_define_ne by done. rewrite Hg. cbn. rewrite Hc.
    by rewrite orb_false_r.
Qed.

(** Only the two macros the header writes can change. *)
Lemma header_other_macros m t :
  m ≠ GIT2_SYS_TEST_WIN32_COMPAT_H → m ≠ _MODE_T_DEFINED →
  defined m (git2_systest_win32_h t) = defined m t.
Proof.
  intros Hguard Hflag.
  destruct (header_runP t); [done | | |].
  - by rewrite defined_define_ne, defined_typedef, defined_define_ne.
  - by rewrite defined_define_ne, defined_replaced_line, defined_define_ne.
  - by rewrite defined_define_ne.
Qed.

Lemma header_quiet t :
  declares t = false →
  decls (git2_systest_win32_h t) = decls t
  ∧ replaced_lines (git2_systest_win32_h t) = replaced_lines t
  ∧ ∀ m, m ≠ GIT2_SYS_TEST_WIN32_COMPAT_H →
         defined m (git2_systest_win32_h t) = defined m t.
Proof.
  intros Hq. split; [| split].
  - by rewrite header_decls_emitted, emitted_declares, Hq, app_nil_r.
  - by rewrite header_replaced_emitted, emitted_replaced_declares, Hq, app_nil_r.
  - intros m Hm. destruct (decide (m = _MODE_T_DEFINED)) as [-> | Hne].
    + by rewrite header_flag, Hq, orb_false_r.
    + by apply header_other_macros.
Qed.

Lemma header_macros_grow t : macros t ⊆ macros (git2_systest_win32_h t).
Proof. destruct (header_runP t); cbn; set_solver. Qed.

Lemma header_macros_bound t :
  macros (git2_systest_win32_h t)
  ⊆ macros t ∪ {[GIT2_SYS_TEST_WIN32_COMPAT_H; _MODE_T_DEFINED]}.
Proof. destruct (header_runP t); cbn; set_solver. Qed.

Lemma header_as_block t :
  git2_systest_win32_h t
  = if defined GIT2_SYS_TEST_WIN32_COMPAT_H t then t
    else mode_t_block (define GIT2_SYS_TEST_WIN32_COMPAT_H t).
Proof.
  unfold git2_systest_win32_h, mode_t_block.
  by destruct (defined GIT2_SYS_TEST_WIN32_COMPAT_H t).
Qed.

Lemma mode_t_block_twice t : mode_t_block (mode_t_block t) = mode_t_block t.
Proof.
  unfold mode_t_block at 2 3.
  destruct (defined _MSC_VER t && negb (defined _MODE_T_DEFINED t)) eqn:Hc.
  - unfold mode_t_block. by rewrite defined_define_eq, andb_false_r.
  - unfold mode_t_block. by rewrite Hc.
Qed.

Lemma define_undef_same m t :
  defined m t = true → define m (undef m t) = t.
Proof.
  intros Hm%defined_true. destruct t as [ms ds rs]. unfold define, undef. cbn in *.
  f_equal. apply set_eq. intros x. rewrite elem_of_union, elem_of_difference,
    elem_of_singleton. destruct (decide (x = m)) as [-> | Hne]; tauto.
Qed.
End OneInclusion.

(** ** Several inclusions, with other code in between *)

Section Runs.
Implicit Types (m n : string) (t : tu) (i : item) (items : list item).

Lemma preprocess_app items items' t :
  preprocess (items ++ items') t = preprocess items' (preprocess items t).
Proof. revert t. induction items as [| i items IH]; intros t; cbn; auto. Qed.

Lemma step_keeps_guard i t :
  keeps_guard i = true →
  defined GIT2_SYS_TEST_WIN32_COMPAT_H t = true →
  defined GIT2_SYS_TEST_WIN32_COMPAT_H (step i t) = true.
Proof.
  intros Hkeep Hguard. destruct i as [| m | m | n ty]; cbn.
  - by rewrite header_guarded.
  - apply defined_true in Hguard. apply defined_true. cbn. set_solver.
  - cbn in Hkeep. apply negb_true_iff, String.eqb_neq in Hkeep.
    rewrite defined_undef_ne; [done | congruence].
  - done.
Qed.


Lemma preprocess_keeps_guard items t :
  forallb keeps_guard items = true →
  defined GIT2_SYS_TEST_WIN32_COMPAT_H t = true →
  defined GIT2_SYS_TEST_WIN32_COMPAT_H (preprocess items t) = true.
Proof.
  revert t. induction items as [| i items IH]; intros t Hkeep Hguard; [done |].
  cbn in Hkeep. apply andb_true_iff in Hkeep as [Hi Hrest].
  cbn. apply IH; [done |]. by apply step_keeps_guard.
Qed.

Lemma emitted_guarded t :
  defined GIT2_SYS_TEST_WIN32_COMPAT_H t = true → emitted t = [].
Proof. intros Hguard. rewrite emitted_declares. unfold declares. by rewrite Hguard. Qed.

Lemma emitted_quiet t :
  declares t = false → emitted t = [] ∧ emitted_replaced t = [].
Proof.
  intros Hq. by rewrite emitted_declares, emitted_replaced_declares, Hq.
Qed.


Lemma emitted_lines_cases t :
  (emitted t = [] ∧ emitted_replaced t = [] ∧ declares t = false)
  ∨ (emitted t = [Typedef_decl mode_t unsigned_short] ∧ emitted_replaced t = []
     ∧ declares t = true ∧ typedef_line_verbatim t = true)
  ∨ (emitted t = [] ∧ emitted_replaced t = [typedef_line]
     ∧ declares t = true ∧ typedef_line_verbatim t = false).
Proof.
  rewrite emitted_declares, emitted_replaced_declares.
  destruct (declares t), (typedef_line_verbatim t); cbn; naive_solver.
Qed.

(** A test that keeps the header from line 8 once it holds, that holds
    after line 8 was reached, and that the rest of the translation unit
    preserves: the include guard with code that never removes it, or
    the feature flag with code that never removes it. *)
Section QuietAfter.
Variable inv : tu → bool.
Variable keeps : item → bool.
Hypothesis inv_quiet : ∀ t, inv t = true → declares t = false.
Hypothesis inv_after : ∀ t, declares t = true → inv (git2_systest_win32_h t) = true.
Hypothesis inv_step : ∀ i t, keeps i = true → inv t = true → inv (step i t) = true.

Lemma header_lines_none items t :
  forallb keeps items = true → inv t = true →
  header_decls items t = [] ∧ header_replaced items t = [].
Proof using inv_quiet inv_step.
  revert t. induction items as [| i items IH]; intros t Hkeep Hinv; [done |].
  cbn in Hkeep. apply andb_true_iff in Hkeep as [Hi Hrest].
  destruct (IH (step i t) Hrest (inv_step i t Hi Hinv)) as [Hd Hr].
  destruct (emitted_quiet t (inv_quiet t Hinv)) as [He Her].
  destruct i; cbn; cbn in Hd, Hr; by rewrite ?He, ?Her, Hd, Hr.
Qed.

End QuietAfter.

Lemma guard_quiet t :
  defined GIT2_SYS_TEST_WIN32_COMPAT_H t = true → declares t = false.
Proof. unfold declares. by intros ->. Qed.




(** Once the guard is defined the inclusions declare nothing more. *)
Lemma header_decls_guarded items t :
  forallb keeps_guard items = true →
  defined GIT2_SYS_TEST_WIN32_COMPAT_H t = true →
  header_decls items t = [] ∧ header_replaced items t = [].
Proof.
  apply (header_lines_none (defined GIT2_SYS_TEST_WIN32_COMPAT_H) keeps_guard);
    [apply guard_quiet | apply step_keeps_guard].
Qed.


(** Once the guard is defined the inclusions can be struck out. *)
Lemma preprocess_guarded items t :
  forallb keeps_guard items = true →
  defined GIT2_SYS_TEST_WIN32_COMPAT_H t = true →
  preprocess items t = preprocess (filter (λ i, is_include i = false) items) t.
Proof.
  revert t. induction items as [| i items IH]; intros t Hkeep Hguard; [done |].
  cbn in Hkeep. apply andb_true_iff in Hkeep as [Hi Hrest].
  pose proof (step_keeps_guard i t Hi Hguard) as Hnext.
  destruct i.
  - rewrite filter_cons_False by done. cbn. rewrite header_guarded by done.
    by apply IH.
  - rewrite filter_cons_True by done. cbn. by apply IH.
  - rewrite filter_cons_True by done. cbn. by apply IH.
  - rewrite filter_cons_True by done. cbn. by apply IH.
Qed.

Lemma include_times_guarded k t :
  defined GIT2_SYS_TEST_WIN32_COMPAT_H t = true → include_times k t = t.
Proof.
  intros Hguard. unfold include_times.
  induction k as [| k IH]; cbn; [done |]. by rewrite header_guarded.
Qed.

Lemma include_times_succ k t :
  include_times (S k) t = git2_systest_win32_h t.
Proof.
  change (include_times (S k) t) with (include_times k (git2_systest_win32_h t)).
  apply include_times_guarded, header_sets_guard.
Qed.


End Runs.

(** ** Declarations, name resolution and diagnostics *)

Section Declarations.
Implicit Types (n : string) (t : tu) (ty : ctype).

Lemma same_decls_resolve n t t' :
  decls t' = decls t → resolve n t' = resolve n t.
Proof. unfold resolve, declarations_of. by intros ->. Qed.

Lemma same_decls_redefinition_free t t' :
  decls t' = decls t → replaced_lines t' = replaced_lines t →
  redefinition_free t' = redefinition_free t.
Proof. unfold redefinition_free, declared_names. by intros -> ->. Qed.


Lemma declared_names_typedef n ty t :
  declared_names (typedef n ty t) = declared_names t ++ [n].
Proof. unfold declared_names. cbn. by rewrite fmap_app. Qed.


Lemma declared_resolves n t :
  n ∈ declared_names t → is_Some (resolve n t).
Proof.
  unfold declared_names, resolve, declarations_of.
  induction (decls t) as [| d l IH]; [by intros ?%elem_of_nil |].
  rewrite fmap_cons, elem_of_cons. intros Hn.
  destruct (decide (td_name d = n)) as [Heq | Hne].
  - rewrite filter_cons_True by done. by eexists.
  - rewrite filter_cons_False by done. apply IH. by destruct Hn.
Qed.

(** A typedef added to a unit without redefinitions: under the rule
    that reports every repeated name, it is reported when the name is
    already declared. *)
Lemma redefinition_free_typedef n ty t :
  redefinition_free t = true →
  redefinition_free (typedef n ty t) = negb (bool_decide (n ∈ declared_names t)).
Proof.
  unfold redefinition_free. intros [Hnd Hrs]%andb_true_iff.
  apply bool_decide_eq_true in Hnd. cbn [replaced_lines typedef]. rewrite Hrs, andb_true_r.
  rewrite declared_names_typedef.
  destruct (decide (n ∈ declared_names t)) as [Hin | Hout].
  - rewrite (bool_decide_eq_true_2 _ Hin). cbn. apply bool_decide_eq_false.
    intros (_ & Hdisj & _)%NoDup_app. apply (Hdisj n Hin), list_elem_of_singleton.
    done.
  - rewrite (bool_decide_eq_false_2 _ Hout). cbn. apply bool_decide_eq_true.
    apply NoDup_app. split; [done |]. split; [| apply NoDup_singleton].
    by intros x Hx ->%list_elem_of_singleton.
Qed.

(** The same under the rule of C11: it is reported when the name is
    already declared with another type. *)
Lemma conflict_free_typedef n ty t :
  conflict_free t = true →
  conflict_free (typedef n ty t)
  = negb (bool_decide (Exists (λ d, td_name d = n ∧ td_type d ≠ ty) (decls t))).
Proof.
  unfold conflict_free. intros [Hcf Hrs]%andb_true_iff.
  apply bool_decide_eq_true in Hcf. cbn [replaced_lines decls typedef].
  rewrite Hrs, andb_true_r.
  destruct (decide (Exists (λ d, td_name d = n ∧ td_type d ≠ ty) (decls t)))
    as [Hex | Hnex].
  - rewrite (bool_decide_eq_true_2 _ Hex). cbn. apply bool_decide_eq_false.
    intros Hall. apply Exists_exists in Hex as (d & Hd & Hname & Htype).
    rewrite Forall_forall in Hall.
    specialize (Hall d (proj2 (elem_of_app _ _ _) (or_introl Hd))).
    rewrite Forall_forall in Hall. apply Htype.
    apply (Hall (Typedef_decl n ty)); [| done].
    apply elem_of_app. right. by apply list_elem_of_singleton.
  - rewrite (bool_decide_eq_false_2 _ Hnex). cbn. apply bool_decide_eq_true.
    assert (Hold : ∀ d, d ∈ decls t → td_name d = n → td_type d = ty).
    { intros d Hd Hname. destruct (decide (td_type d = ty)) as [| Hne]; [done |].
      exfalso. apply Hnex, Exists_exists. by exists d. }
    rewrite Forall_forall in Hcf.
    apply Forall_forall. intros d Hd. apply Forall_forall. intros d' Hd' Hname.
    apply elem_of_app in Hd as [Hd | ->%list_elem_of_singleton];
      apply elem_of_app in Hd' as [Hd' | ->%list_elem_of_singleton]; cbn in *.
    + specialize (Hcf d Hd). rewrite Forall_forall in Hcf. by apply Hcf.
    + by apply Hold.
    + symmetry. by apply Hold.
    + done.
Qed.



(** A unit without repeated names has no conflicting ones. *)
Lemma redefinition_free_conflict_free t :
  redefinition_free t = true → conflict_free t = true.
Proof.
  unfold redefinition_free, conflict_free, declared_names.
  intros [Hnd Hrs]%andb_true_iff. rewrite Hrs, andb_true_r.
  apply bool_decide_eq_true in Hnd. apply bool_decide_eq_true.
  apply Forall_forall. intros d Hd. apply Forall_forall. intros d' Hd' Hname.
  apply list_elem_of_lookup in Hd as [i Hi]. apply list_elem_of_lookup in Hd' as [j Hj].
  assert (i = j) as ->.
  { eapply NoDup_lookup; [exact Hnd | |]; rewrite list_lookup_fmap.
    - by rewrite Hi.
    - by rewrite Hj, Hname. }
  congruence.
Qed.
End Declarations.

(** ** The effect of the header as a function of its three tests *)

Section Effect.
Implicit Types (t : tu).


Lemma effect_guarded t :
  defined GIT2_SYS_TEST_WIN32_COMPAT_H t = true →
  effect t (git2_systest_win32_h t) = ([], ∅).
Proof.
  intros Hg. rewrite header_guarded by done. unfold effect, added_macros.
  f_equal; [by apply added_decls_none | set_solver].
Qed.
End Effect.

(** ** The scenarios of the specification, run *)

Example include_once_msvc :
  git2_systest_win32_h msvc_tu
  = TU {[_MODE_T_DEFINED; GIT2_SYS_TEST_WIN32_COMPAT_H; _MSC_VER]}
       [Typedef_decl mode_t unsigned_short] [].
Proof. vm_compute. reflexivity. Qed.

Example include_twice_msvc :
  preprocess [IncludeHeader; IncludeHeader] msvc_tu = git2_systest_win32_h msvc_tu
  ∧ resolve mode_t (preprocess [IncludeHeader; IncludeHeader] msvc_tu)
    = Some unsigned_short
  ∧ redefinition_free (preprocess [IncludeHeader; IncludeHeader] msvc_tu) = true.
Proof. split; [apply header_idempotent | split; reflexivity]. Qed.

Example include_after_own_definition :
  git2_systest_win32_h own_mode_t_tu = define GIT2_SYS_TEST_WIN32_COMPAT_H own_mode_t_tu
  ∧ decls (git2_systest_win32_h own_mode_t_tu) = [Typedef_decl mode_t (CInt Signed Int)].
Proof. split; reflexivity. Qed.

Example include_after_platform_headers :
  decls (git2_systest_win32_h msvc_native_tu) = [Typedef_decl mode_t unsigned_short]
  ∧ redefinition_free (git2_systest_win32_h msvc_native_tu) = true.
Proof. split; reflexivity. Qed.

Example include_other_compiler :
  git2_systest_win32_h gcc_tu = define GIT2_SYS_TEST_WIN32_COMPAT_H gcc_tu
  ∧ decls (git2_systest_win32_h gcc_tu) = [].
Proof. split; reflexivity. Qed.

(** A typedef of [mode_t] by code that does not look at the feature
    flag, met after the header, repeats the name. *)
Example flag_ignored_by_other_code :
  redefinition_free
    (preprocess [IncludeHeader; DeclareTypedef mode_t (CInt Signed Int)] msvc_tu)
  = false.
Proof. reflexivity. Qed.

Example busy_items_run :
  decls (preprocess busy_items msvc_tu)
  = [Typedef_decl mode_t unsigned_short;
     Typedef_decl "git_off_t" (CInt Signed LongLong)]
  ∧ header_decls busy_items msvc_tu = [Typedef_decl mode_t unsigned_short].
Proof. split; reflexivity. Qed.

Example flag_removed_state :
  defined GIT2_SYS_TEST_WIN32_COMPAT_H flag_removed_tu = true
  ∧ defined _MSC_VER flag_removed_tu = true
  ∧ defined _MODE_T_DEFINED flag_removed_tu = false
  ∧ emitted flag_removed_tu = [].
Proof. repeat split; reflexivity. Qed.

(** With [mode_t] or [short] a macro, line 8 goes through macro
    replacement: no typedef is entered for it, the line is kept as a
    replaced one, and the feature flag is set all the same. *)
Example include_with_macro_mode_t :
  typedef_line_verbatim macro_mode_t_tu = false
  ∧ decls (git2_systest_win32_h macro_mode_t_tu) = []
  ∧ replaced_lines (git2_systest_win32_h macro_mode_t_tu) = [typedef_line]
  ∧ defined _MODE_T_DEFINED (git2_systest_win32_h macro_mode_t_tu) = true
  ∧ redefinition_free (git2_systest_win32_h macro_mode_t_tu) = false.
Proof. repeat split; reflexivity. Qed.

Example include_with_macro_short :
  typedef_line_verbatim macro_short_tu = false
  ∧ emitted macro_short_tu = []
  ∧ emitted_replaced macro_short_tu = [typedef_line]
  ∧ defined _MODE_T_DEFINED (git2_systest_win32_h macro_short_tu) = true.
Proof. repeat split; reflexivity. Qed.

(** With both the guard and the flag removed in between, a second
    inclusion declares again. *)
Example guard_and_flag_removed :
  header_decls
    [IncludeHeader; UndefMacro GIT2_SYS_TEST_WIN32_COMPAT_H;
     UndefMacro _MODE_T_DEFINED; IncludeHeader] msvc_tu
  = [Typedef_decl mode_t unsigned_short; Typedef_decl mode_t unsigned_short].
Proof. reflexivity. Qed.

(** * The properties of the header *)





(** C3: under any other compiler (the test on [_MSC_VER] false) an
    inclusion, and any number of them, declares nothing: the
    declarations are unchanged, so every name resolves as before and
    the diagnostics are the same; and no macro changes apart from the
    header's own include guard. *)
Theorem other_compiler_no_effect (t : tu) :
  defined _MSC_VER t = false →
  emitted t = []
  ∧ decls (git2_systest_win32_h t) = decls t
  ∧ (∀ k, decls (include_times k t) = decls t)
  ∧ (∀ n, resolve n (git2_systest_win32_h t) = resolve n t)
  ∧ redefinition_free (git2_systest_win32_h t) = redefinition_free t
  ∧ (∀ m, m ≠ GIT2_SYS_TEST_WIN32_COMPAT_H →
          defined m (git2_systest_win32_h t) = defined m t)
  ∧ replaced_lines (git2_systest_win32_h t) = replaced_lines t.
Proof.
  intros Hmsvc.
  assert (Hq : declares t = false)
    by (unfold declares; rewrite Hmsvc; by rewrite andb_false_r).
  destruct (header_quiet t Hq) as (Hdecls & Hlines & Hmacros).
  split; [by rewrite emitted_declares, Hq |]. split; [done |].
  split; [intros [| k]; [done | by rewrite include_times_succ] |].
  split; [intros n; by apply same_decls_resolve |].
  split; [by apply same_decls_redefinition_free |]. done.
Qed.

Lemma other_compiler_no_effect_witness :
  defined _MSC_VER gcc_tu = false
  ∧ emitted gcc_tu = []
  ∧ decls (git2_systest_win32_h gcc_tu) = decls gcc_tu
  ∧ (∀ k, decls (include_times k gcc_tu) = decls gcc_tu)
  ∧ (∀ n, resolve n (git2_systest_win32_h gcc_tu) = resolve n gcc_tu)
  ∧ redefinition_free (git2_systest_win32_h gcc_tu) = redefinition_free gcc_tu
  ∧ (∀ m, m ≠ GIT2_SYS_TEST_WIN32_COMPAT_H →
          defined m (git2_systest_win32_h gcc_tu) = defined m gcc_tu)
  ∧ replaced_lines (git2_systest_win32_h gcc_tu) = replaced_lines gcc_tu.
Proof.
  split; [reflexivity |].
  apply (other_compiler_no_effect gcc_tu). reflexivity.
Defined.

(** C4: with [_MODE_T_DEFINED] already set before the inclusion, the
    header declares nothing: the declarations are unchanged, so the
    declarations of [mode_t] already there stay the only ones (a single
    one stays single), [mode_t] resolves as before, and no diagnostic
    is added. *)
Theorem flag_set_contributes_nothing (t : tu) :
  defined _MODE_T_DEFINED t = true →
  emitted t = []
  ∧ decls (git2_systest_win32_h t) = decls t
  ∧ declarations_of mode_t (git2_systest_win32_h t) = declarations_of mode_t t
  ∧ (∀ d, declarations_of mode_t t = [d] →
          declarations_of mode_t (git2_systest_win32_h t) = [d])
  ∧ resolve mode_t (git2_systest_win32_h t) = resolve mode_t t
  ∧ redefinition_free (git2_systest_win32_h t) = redefinition_free t
  ∧ defined _MODE_T_DEFINED (git2_systest_win32_h t) = true
  ∧ replaced_lines (git2_systest_win32_h t) = replaced_lines t.
Proof.
  intros Hflag.
  assert (Hq : declares t = false)
    by (unfold declares; rewrite Hflag; by rewrite andb_false_r).
  destruct (header_quiet t Hq) as (Hdecls & Hlines & Hmacros).
  assert (Hof : declarations_of mode_t (git2_systest_win32_h t)
                = declarations_of mode_t t)
    by (unfold declarations_of; by rewrite Hdecls).
  split; [by rewrite emitted_declares, Hq |]. split; [done |].
  split; [done |]. split; [intros d Hd; by rewrite Hof |].
  split; [by apply same_decls_resolve |].
  split; [by apply same_decls_redefinition_free |].
  split; [| done]. by rewrite header_flag, Hflag.
Qed.

Lemma flag_set_contributes_nothing_witness :
  defined _MODE_T_DEFINED own_mode_t_tu = true
  ∧ declarations_of mode_t own_mode_t_tu = [Typedef_decl mode_t (CInt Signed Int)]
  ∧ decls (git2_systest_win32_h own_mode_t_tu) = decls own_mode_t_tu
  ∧ declarations_of mode_t (git2_systest_win32_h own_mode_t_tu)
    = [Typedef_decl mode_t (CInt Signed Int)]
  ∧ redefinition_free (git2_systest_win32_h own_mode_t_tu)
    = redefinition_free own_mode_t_tu.
Proof.
  pose proof (flag_set_contributes_nothing own_mode_t_tu eq_refl)
    as (_ & Hdecls & _ & Hsole & _ & Hfree & _).
  split; [reflexivity |]. split; [reflexivity |]. split; [exact Hdecls |].
  split; [apply Hsole; reflexivity | exact Hfree].
Defined.

(** C5: whenever an inclusion of the header hands line 8 to the front
    end, as the typedef or as a macro-replaced line, [_MODE_T_DEFINED]
    was not set before and is set after that same inclusion; what the
    inclusion declares, if anything, is the [mode_t] alias, and the
    line it hands over replaced, if any, is line 8. *)
Theorem declaring_sets_flag (t : tu) :
  emitted t ≠ [] ∨ emitted_replaced t ≠ [] →
  (emitted t ≠ [] → emitted t = [Typedef_decl mode_t unsigned_short])
  ∧ defined _MODE_T_DEFINED t = false
  ∧ defined _MODE_T_DEFINED (git2_systest_win32_h t) = true
  ∧ (emitted_replaced t ≠ [] → emitted_replaced t = [typedef_line]).
Proof.
  rewrite header_flag.
  destruct (emitted_lines_cases t)
    as [(-> & -> & Hd) | [(-> & -> & Hd & _) | (-> & -> & Hd & _)]].
  - by intros [? | ?].
  - intros _. rewrite Hd, orb_true_r. repeat split; try done.
    unfold declares in Hd. apply andb_true_iff in Hd as [_ Hflag].
    by apply negb_true_iff.
  - intros _. rewrite Hd, orb_true_r. repeat split; try done.
    unfold declares in Hd. apply andb_true_iff in Hd as [_ Hflag].
    by apply negb_true_iff.
Qed.

Lemma declaring_sets_flag_witness :
  emitted msvc_tu ≠ []
  ∧ emitted msvc_tu = [Typedef_decl mode_t unsigned_short]
  ∧ defined _MODE_T_DEFINED msvc_tu = false
  ∧ defined _MODE_T_DEFINED (git2_systest_win32_h msvc_tu) = true
  ∧ emitted_replaced macro_short_tu ≠ []
  ∧ defined _MODE_T_DEFINED (git2_systest_win32_h macro_short_tu) = true.
Proof.
  assert (He : emitted msvc_tu ≠ []) by (vm_compute; discriminate).
  assert (Hr : emitted_replaced macro_short_tu ≠ []) by (vm_compute; discriminate).
  pose proof (declaring_sets_flag msvc_tu (or_introl He)) as (Hdecl & Hbefore & Hafter & _).
  pose proof (declaring_sets_flag macro_short_tu (or_intror Hr)) as (_ & _ & Hafter' & _).
  split; [exact He |]. split; [exact (Hdecl He) |]. split; [exact Hbefore |].
  split; [exact Hafter |]. split; [exact Hr | exact Hafter'].
Defined.





(** C8: after any processing of the header, whatever the compiler test
    and the feature flag were, the include guard is defined; and it
    stays defined through any later code that does not remove it, even
    code that changes other macros, so that every later inclusion
    leaves the translation unit as it finds it and declares nothing:
    the later inclusions can be struck out. *)
Theorem later_inclusions_process_nothing (t : tu) (items : list item) :
  forallb keeps_guard items = true →
  defined GIT2_SYS_TEST_WIN32_COMPAT_H (git2_systest_win32_h t) = true
  ∧ defined GIT2_SYS_TEST_WIN32_COMPAT_H
      (preprocess items (git2_systest_win32_h t)) = true
  ∧ git2_systest_win32_h (preprocess items (git2_systest_win32_h t))
    = preprocess items (git2_systest_win32_h t)
  ∧ header_decls items (git2_systest_win32_h t) = []
  ∧ preprocess items (git2_systest_win32_h t)
    = preprocess (filter (λ i, is_include i = false) items)
        (git2_systest_win32_h t)
  ∧ header_replaced items (git2_systest_win32_h t) = [].
Proof.
  intros Hkeep. pose proof (header_sets_guard t) as Hguard.
  pose proof (preprocess_keeps_guard _ _ Hkeep Hguard) as Hlater.
  destruct (header_decls_guarded _ _ Hkeep Hguard) as [Hnone Hnone'].
  split; [done |]. split; [done |]. split; [by apply header_guarded |].
  split; [done |]. split; [by apply preprocess_guarded | done].
Qed.

Lemma later_inclusions_process_nothing_witness :
  forallb keeps_guard (tail busy_items) = true
  ∧ defined _MODE_T_DEFINED (preprocess (tail busy_items) (git2_systest_win32_h msvc_tu))
    = false
  ∧ git2_systest_win32_h (preprocess (tail busy_items) (git2_systest_win32_h msvc_tu))
    = preprocess (tail busy_items) (git2_systest_win32_h msvc_tu)
  ∧ header_decls (tail busy_items) (git2_systest_win32_h msvc_tu) = [].
Proof.
  pose proof (later_inclusions_process_nothing msvc_tu (tail busy_items) eq_refl)
    as (_ & _ & Hskip & Hnone & _).
  split; [reflexivity |]. split; [reflexivity |]. exact (conj Hskip Hnone).
Defined.

(** C9: under any other compiler no number of inclusions changes
    [_MODE_T_DEFINED]; and under every compiler the flag after an
    inclusion is the flag before it or the fact that this inclusion
    handed line 8, the typedef line, to the front end, so the header
    sets the flag only together with the typedef line; where line 8 is
    left as written, that is the fact that this inclusion declared
    [mode_t]. *)
Theorem other_compiler_never_sets_flag (t : tu) (k : nat) :
  defined _MSC_VER t = false →
  defined _MODE_T_DEFINED (include_times k t) = defined _MODE_T_DEFINED t
  ∧ (∀ t' : tu,
       defined _MODE_T_DEFINED (git2_systest_win32_h t')
       = defined _MODE_T_DEFINED t'
         || bool_decide (emitted t' ≠ [] ∨ emitted_replaced t' ≠ []))
  ∧ (∀ t' : tu,
       typedef_line_verbatim t' = true →
       defined _MODE_T_DEFINED (git2_systest_win32_h t')
       = defined _MODE_T_DEFINED t'
         || bool_decide (emitted t' = [Typedef_decl mode_t unsigned_short])).
Proof.
  intros Hmsvc. split; [| split].
  - destruct k as [| k]; [done |].
    rewrite include_times_succ, header_flag. unfold declares.
    rewrite Hmsvc. by rewrite andb_false_r, orb_false_r.
  - intros t'. rewrite header_flag.
    destruct (emitted_lines_cases t')
      as [(-> & -> & ->) | [(-> & -> & -> & _) | (-> & -> & -> & _)]];
      by f_equal.
  - intros t' Hline. rewrite header_flag, emitted_declares, Hline, andb_true_r.
    by destruct (declares t').
Qed.

Lemma other_compiler_never_sets_flag_witness :
  defined _MSC_VER gcc_tu = false
  ∧ defined _MODE_T_DEFINED (include_times 2 gcc_tu) = defined _MODE_T_DEFINED gcc_tu
  ∧ typedef_line_verbatim msvc_tu = true
  ∧ defined _MODE_T_DEFINED (git2_systest_win32_h msvc_tu)
    = defined _MODE_T_DEFINED msvc_tu
      || bool_decide (emitted msvc_tu = [Typedef_decl mode_t unsigned_short]).
Proof.
  pose proof (other_compiler_never_sets_flag gcc_tu 2 eq_refl) as (Hsame & _ & Honly).
  split; [reflexivity |]. split; [exact Hsame |]. split; [reflexivity |].
  apply (Honly msvc_tu). reflexivity.
Defined.

(** C10: with the include guard already defined before an inclusion, an
    inclusion leaves the translation unit exactly as it finds it, under
    every compiler and whatever the feature flag: no typedef, and no
    definition of [_MODE_T_DEFINED]. *)
Theorem include_guard_takes_precedence (t : tu) :
  defined GIT2_SYS_TEST_WIN32_COMPAT_H t = true →
  git2_systest_win32_h t = t
  ∧ emitted t = []
  ∧ effect t (git2_systest_win32_h t) = ([], ∅)
  ∧ defined _MODE_T_DEFINED (git2_systest_win32_h t) = defined _MODE_T_DEFINED t.
Proof.
  intros Hguard. rewrite effect_guarded by done.
  split; [by apply header_guarded |]. split; [by apply emitted_guarded |].
  split; [done |]. by rewrite header_guarded.
Qed.

Lemma include_guard_takes_precedence_witness :
  defined GIT2_SYS_TEST_WIN32_COMPAT_H preguarded_tu = true
  ∧ defined _MSC_VER preguarded_tu = true
  ∧ defined _MODE_T_DEFINED preguarded_tu = false
  ∧ git2_systest_win32_h preguarded_tu = preguarded_tu
  ∧ emitted preguarded_tu = []
  ∧ effect preguarded_tu (git2_systest_win32_h preguarded_tu) = ([], ∅)
  ∧ defined _MODE_T_DEFINED (git2_systest_win32_h preguarded_tu)
    = defined _MODE_T_DEFINED preguarded_tu.
Proof.
  split; [reflexivity |]. split; [reflexivity |]. split; [reflexivity |].
  apply (include_guard_takes_precedence preguarded_tu). reflexivity.
Defined.

(** * Further properties of the header *)

(** X1: no number of inclusions of the header removes a macro or
    touches a declaration already made: the macros before are still
    defined after, and the declarations before are the first entries,
    in the same order, of the declarations after. *)
Theorem header_never_removes (t : tu) (k : nat) :
  macros t ⊆ macros (include_times k t)
  ∧ decls t `prefix_of` decls (include_times k t)
  ∧ replaced_lines t `prefix_of` replaced_lines (include_times k t).
Proof.
  destruct k as [| k]; [done |].
  rewrite include_times_succ. split; [apply header_macros_grow |].
  rewrite header_decls_emitted, header_replaced_emitted.
  split; by apply prefix_app_r.
Qed.

(** X2: the header writes two macros and, where line 8 is left as
    written, one name, and nothing else: every macro that is neither
    the include guard nor the feature flag is defined after an
    inclusion exactly when it was before, and every typedef name other
    than [mode_t] has the same declarations and resolves to the same
    type as before. *)
Theorem header_footprint (t : tu) (m n : string) :
  m ≠ GIT2_SYS_TEST_WIN32_COMPAT_H → m ≠ _MODE_T_DEFINED → n ≠ mode_t →
  macros (git2_systest_win32_h t)
  ⊆ macros t ∪ {[GIT2_SYS_TEST_WIN32_COMPAT_H; _MODE_T_DEFINED]}
  ∧ defined m (git2_systest_win32_h t) = defined m t
  ∧ (typedef_line_verbatim t = true →
       declarations_of n (git2_systest_win32_h t) = declarations_of n t
       ∧ resolve n (git2_systest_win32_h t) = resolve n t
       ∧ replaced_lines (git2_systest_win32_h t) = replaced_lines t).
Proof.
  intros Hguard Hflag Hname.
  split; [apply header_macros_bound |]. split; [by apply header_other_macros |].
  intros Hline.
  assert (Hof : declarations_of n (git2_systest_win32_h t) = declarations_of n t).
  { unfold declarations_of. rewrite header_decls_emitted, filter_app, emitted_declares.
    destruct (declares t && typedef_line_verbatim t); [| by rewrite app_nil_r].
    rewrite filter_cons_False by (cbn; congruence). by rewrite app_nil_r. }
  split; [done |]. split; [unfold resolve; by rewrite Hof |].
  rewrite header_replaced_emitted, emitted_replaced_declares, Hline.
  by rewrite andb_false_r, app_nil_r.
Qed.

Lemma header_footprint_witness :
  _MSC_VER ≠ GIT2_SYS_TEST_WIN32_COMPAT_H
  ∧ _MSC_VER ≠ _MODE_T_DEFINED
  ∧ "git_off_t" ≠ mode_t
  ∧ typedef_line_verbatim msvc_tu = true
  ∧ defined _MSC_VER (git2_systest_win32_h msvc_tu) = defined _MSC_VER msvc_tu
  ∧ resolve "git_off_t" (git2_systest_win32_h msvc_tu) = resolve "git_off_t" msvc_tu.
Proof.
  assert (H1 : _MSC_VER ≠ GIT2_SYS_TEST_WIN32_COMPAT_H) by discriminate.
  assert (H2 : _MSC_VER ≠ _MODE_T_DEFINED) by discriminate.
  assert (H3 : "git_off_t" ≠ mode_t) by discriminate.
  pose proof (header_footprint msvc_tu _MSC_VER "git_off_t" H1 H2 H3)
    as (_ & Hm & Hn).
  destruct (Hn eq_refl) as (_ & Hres & _).
  exact (conj H1 (conj H2 (conj H3 (conj eq_refl (conj Hm Hres))))).
Defined.

(** X3: where line 8 is left as written, the header keeps the feature
    flag truthful.  If, before any number of inclusions, [mode_t] is
    declared wherever [_MODE_T_DEFINED] is set, the same holds after
    them. *)
Theorem header_keeps_flag_coherent (t : tu) (k : nat) :
  typedef_line_verbatim t = true →
  flag_coherent t = true → flag_coherent (include_times k t) = true.
Proof.
  intros Hline Hco. destruct k as [| k]; [done |]. rewrite include_times_succ.
  destruct (header_runP t) as [Hg | Hg Hm Hf Hl | Hg Hm Hf Hl | Hg Hc];
    [done | | congruence |].
  - unfold flag_coherent. apply orb_true_iff. right. apply bool_decide_eq_true.
    change (mode_t ∈ declared_names (typedef mode_t unsigned_short t)).
    rewrite declared_names_typedef, elem_of_app, list_elem_of_singleton. by right.
  - unfold flag_coherent in *. by rewrite defined_define_ne.
Qed.

Lemma header_keeps_flag_coherent_witness :
  typedef_line_verbatim msvc_tu = true
  ∧ flag_coherent msvc_tu = true
  ∧ flag_coherent (include_times 2 msvc_tu) = true.
Proof.
  split; [reflexivity |]. split; [reflexivity |].
  apply (header_keeps_flag_coherent msvc_tu 2); reflexivity.
Defined.

(** X4: under the targeted compiler, after a first inclusion in a
    translation unit whose feature flag is truthful and that leaves
    line 8 as written, [mode_t] is declared and resolves to a type, and
    [_MODE_T_DEFINED] is set, whether the flag was set before the
    inclusion or not. *)
Theorem msvc_first_inclusion_provides_mode_t (t : tu) :
  defined _MSC_VER t = true →
  first_inclusion t →
  typedef_line_verbatim t = true →
  flag_coherent t = true →
  mode_t ∈ declared_names (git2_systest_win32_h t)
  ∧ is_Some (resolve mode_t (git2_systest_win32_h t))
  ∧ defined _MODE_T_DEFINED (git2_systest_win32_h t) = true.
Proof.
  intros Hmsvc Hfirst Hline Hco. unfold first_inclusion in Hfirst.
  assert (Hin : mode_t ∈ declared_names (git2_systest_win32_h t)).
  { destruct (header_runP t) as [Hg | Hg Hm Hf Hl | Hg Hm Hf Hl | Hg Hc];
      [congruence | | congruence |].
    - change (mode_t ∈ declared_names (typedef mode_t unsigned_short t)).
      rewrite declared_names_typedef, elem_of_app, list_elem_of_singleton.
      by right.
    - rewrite Hmsvc in Hc. cbn in Hc. apply negb_false_iff in Hc.
      unfold flag_coherent in Hco. rewrite Hc in Hco. cbn in Hco.
      by apply bool_decide_eq_true in Hco. }
  split; [done |]. split; [by apply declared_resolves |].
  rewrite header_flag. unfold declares. rewrite Hfirst, Hmsvc. cbn.
  by destruct (defined _MODE_T_DEFINED t).
Qed.

Lemma msvc_first_inclusion_provides_mode_t_witness :
  defined _MSC_VER msvc_native_tu = true
  ∧ first_inclusion msvc_native_tu
  ∧ typedef_line_verbatim msvc_native_tu = true
  ∧ flag_coherent msvc_native_tu = true
  ∧ mode_t ∈ declared_names (git2_systest_win32_h msvc_native_tu)
  ∧ is_Some (resolve mode_t (git2_systest_win32_h msvc_native_tu))
  ∧ defined _MODE_T_DEFINED (git2_systest_win32_h msvc_native_tu) = true.
Proof.
  split; [reflexivity |]. split; [reflexivity |]. split; [reflexivity |].
  split; [reflexivity |].
  apply (msvc_first_inclusion_provides_mode_t msvc_native_tu); reflexivity.
Defined.

(** X5: where line 8 is left as written, the one way an inclusion
    brings a redefinition into a translation unit that had none is by
    declaring (guard undefined, [_MSC_VER] defined, flag unset) while
    other code has already declared [mode_t] without setting the flag.
    Under the rule that reports every repeated typedef name (C99) that
    is exactly when [mode_t] is already declared; under the rule of C11,
    which lets a name be declared again with the same type, exactly
    when [mode_t] is already declared with a type other than
    [unsigned short]. *)
Theorem header_redefinition_exactly (t : tu) :
  typedef_line_verbatim t = true →
  (redefinition_free t = true →
     redefinition_free (git2_systest_win32_h t)
     = negb (declares t && bool_decide (mode_t ∈ declared_names t)))
  ∧ (conflict_free t = true →
       conflict_free (git2_systest_win32_h t)
       = negb (declares t && mode_t_declared_otherwise t)).
Proof.
  intros Hline. unfold declares.
  destruct (header_runP t) as [Hg | Hg Hm Hf Hl | Hg Hm Hf Hl | Hg Hc].
  - rewrite Hg. by split.
  - rewrite Hg, Hm, Hf. cbn. split; intros Hfree.
    + by apply (redefinition_free_typedef mode_t unsigned_short
                  (define GIT2_SYS_TEST_WIN32_COMPAT_H t)).
    + by apply (conflict_free_typedef mode_t unsigned_short
                  (define GIT2_SYS_TEST_WIN32_COMPAT_H t)).
  - congruence.
  - rewrite Hg. cbn. rewrite Hc. by split.
Qed.

Lemma header_redefinition_exactly_witness :
  typedef_line_verbatim unflagged_mode_t_tu = true
  ∧ redefinition_free unflagged_mode_t_tu = true
  ∧ redefinition_free (git2_systest_win32_h unflagged_mode_t_tu) = false
  ∧ conflict_free (git2_systest_win32_h unflagged_mode_t_tu) = false
  ∧ redefinition_free (git2_systest_win32_h unflagged_same_mode_t_tu) = false
  ∧ conflict_free (git2_systest_win32_h unflagged_same_mode_t_tu) = true.
Proof.
  destruct (header_redefinition_exactly unflagged_mode_t_tu eq_refl) as [H99 H11].
  destruct (header_redefinition_exactly unflagged_same_mode_t_tu eq_refl)
    as [H99' H11'].
  split; [reflexivity |]. split; [reflexivity |].
  split; [rewrite H99; reflexivity |]. split; [rewrite H11; reflexivity |].
  split; [rewrite H99'; reflexivity | rewrite H11'; reflexivity].
Defined.

(** X6: the feature flag guards the typedef on its own.  After a first
    inclusion, if other code removes the include guard and the header
    is included again, the second inclusion declares nothing and
    leaves the translation unit as the first inclusion left it. *)
Theorem reinclusion_after_guard_removed (t : tu) :
  first_inclusion t →
  git2_systest_win32_h
    (undef GIT2_SYS_TEST_WIN32_COMPAT_H (git2_systest_win32_h t))
  = git2_systest_win32_h t
  ∧ emitted (undef GIT2_SYS_TEST_WIN32_COMPAT_H (git2_systest_win32_h t)) = [].
Proof.
  intros Hfirst. unfold first_inclusion in Hfirst.
  assert (Hundef : defined GIT2_SYS_TEST_WIN32_COMPAT_H
                     (undef GIT2_SYS_TEST_WIN32_COMPAT_H (git2_systest_win32_h t))
                   = false).
  { apply defined_false. cbn. rewrite elem_of_difference, elem_of_singleton. tauto. }
  assert (Hagain : git2_systest_win32_h
                     (undef GIT2_SYS_TEST_WIN32_COMPAT_H (git2_systest_win32_h t))
                   = git2_systest_win32_h t).
  { rewrite (header_as_block (undef _ _)), Hundef.
    rewrite define_undef_same by apply header_sets_guard.
    rewrite (header_as_block t), Hfirst. apply mode_t_block_twice. }
  split; [done |]. unfold emitted. rewrite Hagain. by apply added_decls_none.
Qed.

Lemma reinclusion_after_guard_removed_witness :
  first_inclusion msvc_tu
  ∧ git2_systest_win32_h
      (undef GIT2_SYS_TEST_WIN32_COMPAT_H (git2_systest_win32_h msvc_tu))
    = git2_systest_win32_h msvc_tu
  ∧ emitted (undef GIT2_SYS_TEST_WIN32_COMPAT_H (git2_systest_win32_h msvc_tu)) = [].
Proof.
  split; [reflexivity |].
  apply (reinclusion_after_guard_removed msvc_tu). reflexivity.
Defined.

(** X7: the header commutes with other code's definition or removal of
    any macro it does not read.  Where line 8 is left as written, for a
    macro that is neither the include guard, [_MSC_VER] or
    [_MODE_T_DEFINED] nor an identifier of line 8, defining it or
    removing it before the inclusion gives the same translation unit as
    doing so after the inclusion. *)
Theorem header_commutes_with_other_macros (t : tu) (m : string) :
  m ≠ GIT2_SYS_TEST_WIN32_COMPAT_H → m ≠ _MSC_VER → m ≠ _MODE_T_DEFINED →
  m ∉ typedef_line →
  typedef_line_verbatim t = true →
  git2_systest_win32_h (define m t) = define m (git2_systest_win32_h t)
  ∧ git2_systest_win32_h (undef m t) = undef m (git2_systest_win32_h t).
Proof.
  intros Hguard Hmsvc Hflag Hm Hline.
  assert (Hguard' : GIT2_SYS_TEST_WIN32_COMPAT_H ≠ m) by congruence.
  assert (Hmsvc' : _MSC_VER ≠ m) by congruence.
  assert (Hflag' : _MODE_T_DEFINED ≠ m) by congruence.
  unfold git2_systest_win32_h, declare_mode_t.
  rewrite !(verbatim_define GIT2_SYS_TEST_WIN32_COMPAT_H)
    by apply guard_not_on_typedef_line.
  rewrite (verbatim_define m), (verbatim_undef m), Hline by done.
  rewrite !(defined_define_ne _ GIT2_SYS_TEST_WIN32_COMPAT_H) by done.
  rewrite !(defined_define_ne _ m), !(defined_undef_ne _ m) by done.
  destruct (defined GIT2_SYS_TEST_WIN32_COMPAT_H t),
           (defined _MSC_VER t), (defined _MODE_T_DEFINED t); cbn;
    (split; [| unfold define, undef, typedef; cbn; f_equal; set_solver]);
    unfold define, typedef; cbn; f_equal; set_solver.
Qed.

Lemma header_commutes_with_other_macros_witness :
  "NDEBUG" ≠ GIT2_SYS_TEST_WIN32_COMPAT_H
  ∧ "NDEBUG" ≠ _MSC_VER
  ∧ "NDEBUG" ≠ _MODE_T_DEFINED
  ∧ ("NDEBUG" ∉ typedef_line)
  ∧ typedef_line_verbatim msvc_tu = true
  ∧ git2_systest_win32_h (define "NDEBUG" msvc_tu)
    = define "NDEBUG" (git2_systest_win32_h msvc_tu)
  ∧ git2_systest_win32_h (undef "NDEBUG" msvc_tu)
    = undef "NDEBUG" (git2_systest_win32_h msvc_tu).
Proof.
  assert (H1 : "NDEBUG" ≠ GIT2_SYS_TEST_WIN32_COMPAT_H) by discriminate.
  assert (H2 : "NDEBUG" ≠ _MSC_VER) by discriminate.
  assert (H3 : "NDEBUG" ≠ _MODE_T_DEFINED) by discriminate.
  assert (H4 : "NDEBUG" ∉ typedef_line).
  { unfold typedef_line. rewrite !not_elem_of_cons.
    repeat split; try discriminate. apply not_elem_of_nil. }
  split; [exact H1 |]. split; [exact H2 |]. split; [exact H3 |].
  split; [exact H4 |]. split; [reflexivity |].
  exact (header_commutes_with_other_macros msvc_tu "NDEBUG" H1 H2 H3 H4 eq_refl).
Defined.
